(** * User-account service: a shallow embedding of [app/main.py],
    [app/schemas.py] and [app/models.py], with the properties of its
    request handlers.

    The persistence engine, the password hasher and the text of a driver's
    integrity error are collaborators of the handlers, not part of them: the
    store is modelled as the [users] table with its three uniqueness
    constraints, the hasher and the error text are variables of the section
    that holds the handlers. *)

From Stdlib Require Import String Ascii List ZArith Bool Lia Floats.
Import ListNotations.
Open Scope string_scope.

(** ** Python strings *)

Module Py.

(** [sub in s] on [str]: [sub] occurs in [s] as a contiguous run. *)
Fixpoint str_in (sub s : string) : bool :=
  if String.prefix sub s then true
  else match s with
       | EmptyString => false
       | String _ s' => str_in sub s'
       end.

End Py.

(** ** Column types of [app/models.py] *)

(** [User.id] is a UUID; the handlers receive it as the [str] of the path and
    compare it with the column, so it is kept in its canonical text form. *)
Definition UUID := string.

(** [created_at] is a timestamp of the server, kept in ISO-8601 text. *)
Definition datetime := string.

Module User.

(** class User(Base), table [users]. *)
Record t := mk {
  id : UUID;               (* primary key, default uuid.uuid4 *)
  username : string;       (* unique, not null *)
  email : string;          (* unique, not null *)
  password_hash : string;  (* not null *)
  created_at : datetime    (* server_default now() *)
}.

End User.

(** ** Request and response shapes of [app/schemas.py] *)

Module UserCreate.

Record t := mk {
  username : string;
  email : string;
  password : string
}.

End UserCreate.

Module UserUpdate.

(** Both fields are [Optional] and default to [None]. *)
Record t := mk {
  username : option string;
  email : option string
}.

End UserUpdate.

(** JSON values, as far as the bodies of this service need them. *)
#[warnings="-register-all"] Inductive JSON :=
| JNull
| JStr (s : string)
| JArr (items : list JSON)
| JObj (fields : list (string * JSON)).

(** The keys of an object; no keys for any other value. *)
Definition keys (j : JSON) : list string :=
  match j with
  | JObj fields => map fst fields
  | _ => []
  end.

(** [k] is a key of [j] or of a value nested in it. *)
Fixpoint has_key (k : string) (j : JSON) : bool :=
  match j with
  | JObj fields =>
      existsb (fun kv : string * JSON =>
                 let (k', v) := kv in (k' =? k) || has_key k v) fields
  | JArr items => existsb (has_key k) items
  | _ => false
  end.

Module UserRead.

Record t := mk {
  id : UUID;
  username : string;
  email : string;
  created_at : datetime
}.

(** [Config.from_attributes]: the model is read off the attributes of the
    ORM object that a handler returns. *)
Definition from_attributes (u : User.t) : t :=
  {| id := User.id u;
     username := User.username u;
     email := User.email u;
     created_at := User.created_at u |}.

(** The response body: one entry per declared field, in declaration
    order. *)
Definition model_dump (r : t) : JSON :=
  JObj [ ("id", JStr (id r));
         ("username", JStr (username r));
         ("email", JStr (email r));
         ("created_at", JStr (created_at r)) ].

End UserRead.

(** ** The session over the [users] table *)

Module Session.

(** The rows of [users], in the order a scan of the table yields them. *)
Definition rows := list User.t.

(** The uniqueness constraints that [app/models.py] declares:
    [primary_key=True] on [id], [unique=True] on [username] and [email]. *)
Inductive Constraint := users_pkey | ix_users_username | ix_users_email.

Inductive Statement :=
| INSERT (row : User.t)
| UPDATE (old new : User.t).

(** sqlalchemy.exc.IntegrityError: the rejected statement and the
    constraints it violates.  Which of them the driver names in its
    message, and in which words, is the driver's business. *)
Record IntegrityError := {
  violated : list Constraint;
  statement : Statement
}.

(** db.query(User).filter(User.id == user_id).first() *)
Definition first_by_id (user_id : UUID) (db : rows) : option User.t :=
  find (fun r => User.id r =? user_id) db.

(** db.query(User).filter(User.username == username).first() *)
Definition first_by_username (username : string) (db : rows) : option User.t :=
  find (fun r => User.username r =? username) db.

Definition insert_violations (row : User.t) (db : rows) : list Constraint :=
  ((if existsb (fun r => User.id r =? User.id row) db
    then [users_pkey] else [])
   ++ (if existsb (fun r => User.username r =? User.username row) db
       then [ix_users_username] else [])
   ++ (if existsb (fun r => User.email r =? User.email row) db
       then [ix_users_email] else []))%list.

(** db.add(row); db.commit() *)
Definition add_commit (row : User.t) (db : rows) : IntegrityError + rows :=
  match insert_violations row db with
  | [] => inr (db ++ [row])%list
  | vs => inl {| violated := vs; statement := INSERT row |}
  end.

(** Only a column whose value changed is written, and checked. *)
Definition update_violations (old new : User.t) (db : rows) : list Constraint :=
  ((if negb (User.username old =? User.username new)
       && existsb (fun r => User.username r =? User.username new) db
    then [ix_users_username] else [])
   ++ (if negb (User.email old =? User.email new)
          && existsb (fun r => User.email r =? User.email new) db
       then [ix_users_email] else []))%list.

(** db.commit() after attribute assignments on the loaded object [old]
    that leave it as [new].  With no attribute changed no statement is
    emitted. *)
Definition update_commit (old new : User.t) (db : rows) : IntegrityError + rows :=
  if (User.username old =? User.username new)
     && (User.email old =? User.email new)
  then inr db
  else
    match update_violations old new db with
    | [] => inr (map (fun r => if User.id r =? User.id old then new else r) db)
    | vs => inl {| violated := vs; statement := UPDATE old new |}
    end.

(** db.delete(user); db.commit() *)
Definition delete_commit (user : User.t) (db : rows) : rows :=
  filter (fun r => negb (User.id r =? User.id user)) db.

(** db.refresh(obj): the row is read again by its primary key. *)
Definition refresh (obj : User.t) (db : rows) : option User.t :=
  first_by_id (User.id obj) db.

(** db.query(User).offset(skip).limit(limit).all(); the store rejects a
    negative OFFSET or LIMIT. *)
Definition offset_limit_all (skip limit : Z) (db : rows) : option (list User.t) :=
  if ((skip <? 0) || (limit <? 0))%Z then None
  else Some (firstn (Z.to_nat limit) (skipn (Z.to_nat skip) db)).

End Session.

(** ** Outcomes of a handler *)

Record HTTPException := {
  status_code : Z;
  detail : string
}.

Inductive Outcome (A : Type) :=
| Return (a : A)                 (* return a *)
| Raise (e : HTTPException)      (* raise HTTPException(...) *)
| Unhandled (exc : string).      (* any other exception leaves the handler *)

Arguments Return {A} a.
Arguments Raise {A} e.
Arguments Unhandled {A} exc.

Definition HTTP_200_OK : Z := 200.
Definition HTTP_201_CREATED : Z := 201.
Definition HTTP_204_NO_CONTENT : Z := 204.
Definition HTTP_400_BAD_REQUEST : Z := 400.
Definition HTTP_401_UNAUTHORIZED : Z := 401.
Definition HTTP_404_NOT_FOUND : Z := 404.
Definition HTTP_409_CONFLICT : Z := 409.
Definition HTTP_500_INTERNAL_SERVER_ERROR : Z := 500.

(** What a request draws from outside the store: the value of
    [uuid.uuid4()], the salt of the hasher and the clock of the server. *)
Record Env := {
  uuid4 : UUID;
  gensalt : string;
  now : datetime
}.

(** ** The arithmetic factory *)

Module CalculationFactory.

Inductive Result :=
| Value (x : float)
| InvalidOperationError.

(** Modelled from the spec: [app/factory.py], which defines
    [CalculationFactory.calculate], is not among the sources; only its
    calls in [tests/test_integration.py] are.  The operation is named by a
    string, Add is a+b, Subtract is a-b, Multiply is a*b, Divide is a/b in
    IEEE-754 double precision, and an unknown name fails with an
    InvalidOperation error. *)
Definition calculate (operation : string) (a b : float) : Result :=
  if operation =? "Add" then Value (a + b)%float
  else if operation =? "Subtract" then Value (a - b)%float
  else if operation =? "Multiply" then Value (a * b)%float
  else if operation =? "Divide" then Value (a / b)%float
  else InvalidOperationError.

(** [abs(x - y) < tol], the comparison of the tests. *)
Definition within (tol x y : float) : bool :=
  (PrimFloat.abs (x - y) <? tol)%float.

End CalculationFactory.

(** ** Fixtures

    The payloads of [tests/test_integration.py], and one concrete choice for
    each collaborator, on which the handlers can be run. *)

Module Fixture.

(** A hasher in the clear: the salt, a dollar sign, the password. *)
Definition hash_password (salt password : string) : string :=
  salt ++ "$" ++ password.

Fixpoint after_dollar (h : string) : string :=
  match h with
  | EmptyString => EmptyString
  | String c h' => if Ascii.eqb c "$"%char then h' else after_dollar h'
  end.

Definition verify_password (password hashed : string) : bool :=
  after_dollar hashed =? password.

Definition column (c : Session.Constraint) : string :=
  match c with
  | Session.users_pkey => "users.id"
  | Session.ix_users_username => "users.username"
  | Session.ix_users_email => "users.email"
  end.

(** A driver that names every violated column and nothing else. *)
Definition str_IntegrityError (e : Session.IntegrityError) : string :=
  "UNIQUE constraint failed: "
  ++ String.concat ", " (map column (Session.violated e)).

Definition env (n : string) : Env :=
  {| uuid4 := "00000000-0000-0000-0000-00000000000" ++ n;
     gensalt := "salt" ++ n;
     now := "2024-01-01T12:00:0" ++ n |}.

Definition johndoe : UserCreate.t :=
  UserCreate.mk "johndoe" "john@example.com" "securepassword123".

Definition johndoe2 : UserCreate.t :=
  UserCreate.mk "johndoe" "john2@example.com" "securepassword456".



(** The row that creating [johndoe] under [env "1"] stores. *)
Definition johndoe_row : User.t :=
  User.mk "00000000-0000-0000-0000-000000000001" "johndoe"
          "john@example.com" "salt1$securepassword123" "2024-01-01T12:00:01".

Definition janedoe_row : User.t :=
  User.mk "00000000-0000-0000-0000-000000000002" "janedoe"
          "jane@example.com" "salt2$securepassword456" "2024-01-01T12:00:02".


End Fixture.

(** ** The handlers of [app/main.py] *)

Section Handlers.

(** app.security.hash_password, with the salt it draws made explicit. *)
Variable hash_password : string -> string -> string.

(** app.security.verify_password(password, password_hash) *)
Variable verify_password : string -> string -> bool.

(** [str(e)] of an IntegrityError: the text of the driver. *)
Variable str : Session.IntegrityError -> string.

(** async def health_check() *)
Definition health_check : Outcome JSON :=
  Return (JObj [ ("status", JStr "healthy");
                 ("message", JStr "Application is running") ]).

(** The object that [create_user] builds and adds: the password hashed,
    [id] and [created_at] filled in by their defaults when the row is
    written. *)
Definition new_user (env : Env) (user_data : UserCreate.t) : User.t :=
  let password_hash :=
    hash_password (gensalt env) (UserCreate.password user_data) in
  {| User.id := uuid4 env;
     User.username := UserCreate.username user_data;
     User.email := UserCreate.email user_data;
     User.password_hash := password_hash;
     User.created_at := now env |}.

(** async def create_user(user_data, db) *)
Definition create_user (env : Env) (user_data : UserCreate.t)
    (db : Session.rows) : Outcome User.t * Session.rows :=
  let db_user := new_user env user_data in
  match Session.add_commit db_user db with
  | inr db' =>
      match Session.refresh db_user db' with
      | Some u => (Return u, db')
      | None => (Unhandled "InvalidRequestError", db')
      end
  | inl e =>
      (* db.rollback() *)
      (if Py.str_in "username" (str e) then
         Raise {| status_code := HTTP_409_CONFLICT;
                  detail := "Username already exists" |}
       else if Py.str_in "email" (str e) then
         Raise {| status_code := HTTP_409_CONFLICT;
                  detail := "Email already exists" |}
       else
         Raise {| status_code := HTTP_400_BAD_REQUEST;
                  detail := "User creation failed due to data conflict" |},
       db)
  end.

(** async def get_user(user_id, db) *)
Definition get_user (user_id : UUID) (db : Session.rows)
    : Outcome User.t * Session.rows :=
  match Session.first_by_id user_id db with
  | None =>
      (Raise {| status_code := HTTP_404_NOT_FOUND;
                detail := "User not found" |}, db)
  | Some user => (Return user, db)
  end.

(** async def list_users(skip, limit, db) *)
Definition list_users (skip limit : Z) (db : Session.rows)
    : Outcome (list User.t) * Session.rows :=
  match Session.offset_limit_all skip limit db with
  | Some users => (Return users, db)
  | None => (Unhandled "DataError", db)
  end.

(** The two assignments of [update_user], each under its
    [is not None] test. *)
Definition assign (user_data : UserUpdate.t) (user : User.t) : User.t :=
  let user :=
    match UserUpdate.username user_data with
    | Some username =>
        {| User.id := User.id user;
           User.username := username;
           User.email := User.email user;
           User.password_hash := User.password_hash user;
           User.created_at := User.created_at user |}
    | None => user
    end in
  match UserUpdate.email user_data with
  | Some email =>
      {| User.id := User.id user;
         User.username := User.username user;
         User.email := email;
         User.password_hash := User.password_hash user;
         User.created_at := User.created_at user |}
  | None => user
  end.

(** async def update_user(user_id, user_data, db) *)
Definition update_user (user_id : UUID) (user_data : UserUpdate.t)
    (db : Session.rows) : Outcome User.t * Session.rows :=
  match Session.first_by_id user_id db with
  | None =>
      (Raise {| status_code := HTTP_404_NOT_FOUND;
                detail := "User not found" |}, db)
  | Some user =>
      let user' := assign user_data user in
      match Session.update_commit user user' db with
      | inr db' =>
          match Session.refresh user' db' with
          | Some u => (Return u, db')
          | None => (Unhandled "InvalidRequestError", db')
          end
      | inl e =>
          (* db.rollback() *)
          (if Py.str_in "username" (str e) then
             Raise {| status_code := HTTP_409_CONFLICT;
                      detail := "Username already exists" |}
           else if Py.str_in "email" (str e) then
             Raise {| status_code := HTTP_409_CONFLICT;
                      detail := "Email already exists" |}
           else
             Raise {| status_code := HTTP_400_BAD_REQUEST;
                      detail := "Update failed due to data conflict" |},
           db)
      end
  end.

(** async def delete_user(user_id, db) *)
Definition delete_user (user_id : UUID) (db : Session.rows)
    : Outcome unit * Session.rows :=
  match Session.first_by_id user_id db with
  | None =>
      (Raise {| status_code := HTTP_404_NOT_FOUND;
                detail := "User not found" |}, db)
  | Some user => (Return tt, Session.delete_commit user db)
  end.

(** async def verify_user_password(username, password, db) *)
Definition verify_user_password (username password : string)
    (db : Session.rows) : Outcome JSON * Session.rows :=
  match Session.first_by_username username db with
  | None =>
      (Raise {| status_code := HTTP_404_NOT_FOUND;
                detail := "User not found" |}, db)
  | Some user =>
      if negb (verify_password password (User.password_hash user)) then
        (Raise {| status_code := HTTP_401_UNAUTHORIZED;
                  detail := "Invalid password" |}, db)
      else
        (Return (JObj [ ("message", JStr "Password verified successfully") ]),
         db)
  end.

(** *** The routes: what the decorators of the handlers add *)

Record Response := {
  status : Z;
  content : JSON
}.

Inductive Request :=
| GET_health
| POST_users (env : Env) (user_data : UserCreate.t)
| GET_users_id (user_id : UUID)
| GET_users (skip limit : option Z)
| PUT_users_id (user_id : UUID) (user_data : UserUpdate.t)
| DELETE_users_id (user_id : UUID)
| POST_verify_password (username password : string).

(** The response for an outcome: the value under the route's response
    model and success status, an HTTPException as its status and a
    [detail] object, anything else as a 500. *)
Definition respond {A : Type} (success : Z) (response_model : A -> JSON)
    (r : Outcome A * Session.rows) : Response * Session.rows :=
  (match fst r with
   | Return a => {| status := success; content := response_model a |}
   | Raise e =>
       {| status := status_code e;
          content := JObj [ ("detail", JStr (detail e)) ] |}
   | Unhandled _ =>
       {| status := HTTP_500_INTERNAL_SERVER_ERROR;
          content := JStr "Internal Server Error" |}
   end, snd r).

(** response_model=UserRead *)
Definition as_UserRead (u : User.t) : JSON :=
  UserRead.model_dump (UserRead.from_attributes u).

(** response_model=list[UserRead] *)
Definition as_list_UserRead (users : list User.t) : JSON :=
  JArr (map as_UserRead users).

Definition app (req : Request) (db : Session.rows) : Response * Session.rows :=
  match req with
  | GET_health =>
      respond HTTP_200_OK (fun j => j) (health_check, db)
  | POST_users env user_data =>
      respond HTTP_201_CREATED as_UserRead (create_user env user_data db)
  | GET_users_id user_id =>
      respond HTTP_200_OK as_UserRead (get_user user_id db)
  | GET_users skip limit =>
      respond HTTP_200_OK as_list_UserRead
        (list_users (match skip with Some n => n | None => 0%Z end)
                    (match limit with Some n => n | None => 10%Z end) db)
  | PUT_users_id user_id user_data =>
      respond HTTP_200_OK as_UserRead (update_user user_id user_data db)
  | DELETE_users_id user_id =>
      respond HTTP_204_NO_CONTENT (fun _ => JNull) (delete_user user_id db)
  | POST_verify_password username password =>
      respond HTTP_200_OK (fun j => j)
        (verify_user_password username password db)
  end.


(** The constraints of [app/models.py] as a property of the rows: no two
    rows share an [id], a [username] or an [email]. *)
Definition unique_keys (db : Session.rows) : Prop :=
  NoDup (map User.id db)
  /\ NoDup (map User.username db)
  /\ NoDup (map User.email db).

(** A sequence of requests, each served on the store that the one before
    it left. *)
Fixpoint run (reqs : list Request) (db : Session.rows) : Session.rows :=
  match reqs with
  | [] => db
  | req :: reqs => run reqs (snd (app req db))
  end.

(** ** Properties *)

(** *** Substring test *)

Lemma prefix_app (sub s : string) :
  String.prefix sub s = true <-> exists b, s = sub ++ b.
Proof.
  revert s; induction sub as [|c sub IH]; intros s.
  - destruct s; simpl; split; eauto.
  - destruct s as [|c' s]; simpl.
    + split; [discriminate | intros [b Hb]; discriminate].
    + destruct (ascii_dec c c') as [->|Hne].
      * rewrite IH. split; intros [b Hb]; exists b.
        -- now subst.
        -- now injection Hb.
      * split; [discriminate|].
        intros [b Hb]; injection Hb as Hc _; congruence.
Qed.

(** [Py.str_in] is the occurrence of [sub] somewhere in [s]. *)
Lemma str_in_occurs (sub s : string) :
  Py.str_in sub s = true <-> exists a b, s = a ++ sub ++ b.
Proof.
  induction s as [|c s IH].
  - cbn [Py.str_in]. destruct (String.prefix sub EmptyString) eqn:Hp.
    + split; [intros _|reflexivity].
      apply prefix_app in Hp as [b Hb]. now exists EmptyString, b.
    + split; [discriminate|].
      intros ([|c a] & b & Hab); [|discriminate].
      simpl in Hab. exfalso.
      assert (String.prefix sub EmptyString = true) as Ht
          by (apply prefix_app; eauto).
      congruence.
  - cbn [Py.str_in]. destruct (String.prefix sub (String c s)) eqn:Hp.
    + split; [intros _|reflexivity].
      apply prefix_app in Hp as [b Hb]. now exists EmptyString, b.
    + rewrite IH. split.
      * intros (a & b & ->). now exists (String c a), b.
      * intros ([|c' a] & b & Hab).
        -- simpl in Hab. exfalso.
           assert (String.prefix sub (String c s) = true) as Ht
               by (apply prefix_app; eauto).
           congruence.
        -- simpl in Hab. injection Hab as _ ->. eauto.
Qed.

(** *** The session *)

Lemma find_app_last {A} (p : A -> bool) (l : list A) (x : A) :
  existsb p l = false -> p x = true -> find p (l ++ [x])%list = Some x.
Proof.
  induction l as [|y l IH]; simpl; intros Hl Hx.
  - now rewrite Hx.
  - apply orb_false_elim in Hl as [Hy Hl]. rewrite Hy. auto.
Qed.

(** A commit of [add] that goes through met none of the three
    constraints and put the row last. *)
Lemma add_commit_inr (row : User.t) (db db' : Session.rows) :
  Session.add_commit row db = inr db' ->
  db' = (db ++ [row])%list
  /\ existsb (fun r => User.id r =? User.id row) db = false
  /\ existsb (fun r => User.username r =? User.username row) db = false
  /\ existsb (fun r => User.email r =? User.email row) db = false.
Proof.
  unfold Session.add_commit, Session.insert_violations.
  destruct (existsb (fun r => User.id r =? User.id row) db);
    destruct (existsb (fun r => User.username r =? User.username row) db);
    destruct (existsb (fun r => User.email r =? User.email row) db);
    simpl; intros H; try discriminate.
  injection H as <-. auto.
Qed.

Lemma add_commit_fresh (row : User.t) (db : Session.rows) :
  existsb (fun r => User.id r =? User.id row) db = false ->
  existsb (fun r => User.username r =? User.username row) db = false ->
  existsb (fun r => User.email r =? User.email row) db = false ->
  Session.add_commit row db = inr (db ++ [row])%list.
Proof.
  unfold Session.add_commit, Session.insert_violations.
  now intros -> -> ->.
Qed.

Lemma refresh_after_add (row : User.t) (db db' : Session.rows) :
  Session.add_commit row db = inr db' ->
  Session.refresh row db' = Some row.
Proof.
  intros H. apply add_commit_inr in H as (-> & Hid & _).
  unfold Session.refresh, Session.first_by_id.
  apply find_app_last; [exact Hid | apply String.eqb_refl].
Qed.

(** What a successful Create returns and leaves behind. *)
Lemma create_user_Return env user_data db u db' :
  create_user env user_data db = (Return u, db') ->
  u = new_user env user_data
  /\ Session.add_commit (new_user env user_data) db = inr db'.
Proof.
  unfold create_user.
  destruct (Session.add_commit (new_user env user_data) db) as [e|db1] eqn:Hc.
  - destruct (Py.str_in "username" (str e));
      [|destruct (Py.str_in "email" (str e))]; discriminate.
  - rewrite (refresh_after_add _ _ _ Hc). intros H. now injection H as <- <-.
Qed.

Lemma create_user_fresh env user_data db :
  existsb (fun r => User.id r =? uuid4 env) db = false ->
  existsb (fun r => User.username r =? UserCreate.username user_data) db = false ->
  existsb (fun r => User.email r =? UserCreate.email user_data) db = false ->
  create_user env user_data db
  = (Return (new_user env user_data), (db ++ [new_user env user_data])%list).
Proof.
  intros Hid Hn He. unfold create_user.
  pose proof (add_commit_fresh (new_user env user_data) db Hid Hn He) as Hc.
  rewrite Hc. now rewrite (refresh_after_add _ _ _ Hc).
Qed.

Lemma find_replace (user_id : UUID) (old new : User.t) (db : Session.rows) :
  User.id new = User.id old ->
  Session.first_by_id user_id db = Some old ->
  Session.first_by_id user_id
    (map (fun r => if User.id r =? User.id old then new else r) db)
  = Some new.
Proof.
  unfold Session.first_by_id. intros Hid.
  induction db as [|r db IH]; simpl; [discriminate|].
  destruct (User.id r =? user_id) eqn:Hr.
  - intros H; injection H as ->. rewrite String.eqb_refl.
    rewrite Hid. now rewrite Hr.
  - intros H. specialize (IH H).
    apply find_some in H as [_ Hold]. apply String.eqb_eq in Hold.
    subst user_id. rewrite Hr. simpl. rewrite Hr. exact IH.
Qed.

Lemma find_replace_other (k : UUID) (old new : User.t) (db : Session.rows) :
  User.id new = User.id old ->
  k <> User.id old ->
  Session.first_by_id k
    (map (fun r => if User.id r =? User.id old then new else r) db)
  = Session.first_by_id k db.
Proof.
  unfold Session.first_by_id. intros Hid Hk.
  induction db as [|r db IH]; simpl; [reflexivity|].
  destruct (User.id r =? User.id old) eqn:Hr.
  - apply String.eqb_eq in Hr. rewrite Hid, Hr.
    apply String.eqb_neq in Hk. rewrite String.eqb_sym in Hk.
    rewrite Hk. exact IH.
  - destruct (User.id r =? k); [reflexivity | exact IH].
Qed.

Lemma first_by_id_id (user_id : UUID) (user : User.t) (db : Session.rows) :
  Session.first_by_id user_id db = Some user -> User.id user = user_id.
Proof.
  intros H. apply find_some in H as [_ H]. now apply String.eqb_eq.
Qed.

(** The assignments touch [username] and [email] only, each when it is
    supplied. *)
Lemma assign_fields (user_data : UserUpdate.t) (user : User.t) :
  User.id (assign user_data user) = User.id user
  /\ User.username (assign user_data user)
     = match UserUpdate.username user_data with
       | Some username => username
       | None => User.username user
       end
  /\ User.email (assign user_data user)
     = match UserUpdate.email user_data with
       | Some email => email
       | None => User.email user
       end
  /\ User.password_hash (assign user_data user) = User.password_hash user
  /\ User.created_at (assign user_data user) = User.created_at user.
Proof.
  unfold assign.
  destruct (UserUpdate.username user_data), (UserUpdate.email user_data);
    simpl; auto.
Qed.

Lemma user_eta (u v : User.t) :
  User.id u = User.id v ->
  User.username u = User.username v ->
  User.email u = User.email v ->
  User.password_hash u = User.password_hash v ->
  User.created_at u = User.created_at v ->
  u = v.
Proof. destruct u, v; simpl; intros; congruence. Qed.

(** A commit of the assignments that goes through leaves the assigned
    object as the row of that id and every row of another id as it was. *)
Lemma update_commit_inr (user_id : UUID) (user_data : UserUpdate.t)
    (user : User.t) (db db' : Session.rows) :
  Session.first_by_id user_id db = Some user ->
  Session.update_commit user (assign user_data user) db = inr db' ->
  Session.first_by_id user_id db' = Some (assign user_data user)
  /\ (forall k, k <> user_id ->
        Session.first_by_id k db' = Session.first_by_id k db)
  /\ length db' = length db.
Proof.
  intros Hf. pose proof (first_by_id_id _ _ _ Hf) as Hid.
  destruct (assign_fields user_data user) as (Ai & An & Ae & Ap & Ac).
  unfold Session.update_commit.
  destruct ((User.username user =? User.username (assign user_data user))
            && (User.email user =? User.email (assign user_data user)))
    eqn:Hsame.
  - intros H; injection H as <-.
    apply andb_true_iff in Hsame as [Hn He].
    apply String.eqb_eq in Hn, He.
    replace (assign user_data user) with user
      by (apply user_eta; congruence).
    auto.
  - destruct (Session.update_violations user (assign user_data user) db);
      [|discriminate].
    intros H; injection H as <-. split; [|split].
    + now apply find_replace.
    + intros k Hk. apply find_replace_other; congruence.
    + apply length_map.
Qed.

Lemma update_user_Return user_id user_data db user u db' :
  Session.first_by_id user_id db = Some user ->
  update_user user_id user_data db = (Return u, db') ->
  u = assign user_data user
  /\ Session.update_commit user (assign user_data user) db = inr db'.
Proof.
  intros Hf. unfold update_user. rewrite Hf.
  destruct (Session.update_commit user (assign user_data user) db)
    as [e|db1] eqn:Hc.
  - destruct (Py.str_in "username" (str e));
      [|destruct (Py.str_in "email" (str e))]; discriminate.
  - destruct (update_commit_inr _ _ _ _ _ Hf Hc) as (Hnew & _).
    unfold Session.refresh.
    destruct (assign_fields user_data user) as (-> & _).
    rewrite (first_by_id_id _ _ _ Hf), Hnew.
    intros H. now injection H as <- <-.
Qed.

(** Whatever Update answers, the store afterwards is the one before or
    the one its commit wrote. *)
Lemma update_user_store user_id user_data db user :
  Session.first_by_id user_id db = Some user ->
  snd (update_user user_id user_data db) = db
  \/ exists db',
       Session.update_commit user (assign user_data user) db = inr db'
       /\ update_user user_id user_data db
          = (Return (assign user_data user), db').
Proof.
  intros Hf. unfold update_user. rewrite Hf.
  destruct (Session.update_commit user (assign user_data user) db)
    as [e|db1] eqn:Hc; [left; reflexivity|].
  right. exists db1. split; [reflexivity|].
  destruct (update_commit_inr _ _ _ _ _ Hf Hc) as (Hnew & _).
  unfold Session.refresh.
  destruct (assign_fields user_data user) as (-> & _).
  now rewrite (first_by_id_id _ _ _ Hf), Hnew.
Qed.

(** *** Conflict translation *)



(** *** Update *)

(** C3.  For a stored user and any Update request, whatever the answer,
    the row of that id afterwards differs from the one before in the
    supplied fields at most: an omitted [username] or [email] keeps its
    value, [id], [password_hash] and [created_at] keep theirs, and every
    row of another id is as it was.  When Update succeeds, the row
    afterwards is the one returned and carries the supplied values. *)
Theorem update_changes_supplied_fields_only :
  forall user_id user_data db user,
    Session.first_by_id user_id db = Some user ->
    (exists user',
        Session.first_by_id user_id (snd (update_user user_id user_data db))
        = Some user'
        /\ User.id user' = User.id user
        /\ User.password_hash user' = User.password_hash user
        /\ User.created_at user' = User.created_at user
        /\ (UserUpdate.username user_data = None ->
            User.username user' = User.username user)
        /\ (UserUpdate.email user_data = None ->
            User.email user' = User.email user))
    /\ (forall k, k <> user_id ->
          Session.first_by_id k (snd (update_user user_id user_data db))
          = Session.first_by_id k db)
    /\ (forall u db',
          update_user user_id user_data db = (Return u, db') ->
          Session.first_by_id user_id db' = Some u
          /\ User.username u
             = match UserUpdate.username user_data with
               | Some username => username
               | None => User.username user
               end
          /\ User.email u
             = match UserUpdate.email user_data with
               | Some email => email
               | None => User.email user
               end).
Proof.
  intros user_id user_data db user Hf.
  destruct (assign_fields user_data user) as (Ai & An & Ae & Ap & Ac).
  split; [|split].
  - destruct (update_user_store user_id user_data db user Hf)
      as [-> | (db' & Hc & ->)].
    + exists user. repeat split; auto.
    + destruct (update_commit_inr _ _ _ _ _ Hf Hc) as (Hnew & _).
      exists (assign user_data user). simpl.
      repeat split; auto.
      * intros Hn. now rewrite An, Hn.
      * intros He. now rewrite Ae, He.
  - intros k Hk.
    destruct (update_user_store user_id user_data db user Hf)
      as [-> | (db' & Hc & ->)]; [reflexivity|].
    destruct (update_commit_inr _ _ _ _ _ Hf Hc) as (_ & Hother & _).
    now apply Hother.
  - intros u db' Hu.
    destruct (update_user_Return _ _ _ _ _ _ Hf Hu) as (-> & Hc).
    destruct (update_commit_inr _ _ _ _ _ Hf Hc) as (Hnew & _).
    auto.
Qed.

(** C10.  For a stored user, an Update request that supplies neither
    [username] nor [email] is answered with status 200 and the user's
    current data, and leaves the store, hence every field of the record,
    as it was. *)
Theorem update_without_fields_is_identity :
  forall user_id db user,
    Session.first_by_id user_id db = Some user ->
    update_user user_id (UserUpdate.mk None None) db = (Return user, db)
    /\ app (PUT_users_id user_id (UserUpdate.mk None None)) db
       = ({| status := HTTP_200_OK; content := as_UserRead user |}, db).
Proof.
  intros user_id db user Hf.
  assert (update_user user_id (UserUpdate.mk None None) db = (Return user, db))
    as Hu.
  { unfold update_user. rewrite Hf.
    unfold assign, Session.update_commit. simpl.
    rewrite !String.eqb_refl. simpl.
    unfold Session.refresh.
    now rewrite (first_by_id_id _ _ _ Hf), Hf. }
  split; [exact Hu|].
  unfold app, respond. now rewrite Hu.
Qed.

(** *** Create, then read *)

(** C4.  When Create accepts a triple (status 201), its body carries the
    supplied [username] and [email], the generated [id] and the
    [created_at] of the server, and Get-by-id with that [id], on the
    store that Create left, answers 200 with the same body. *)
Theorem create_then_get_by_id :
  forall env user_data db,
    status (fst (app (POST_users env user_data) db)) = HTTP_201_CREATED ->
    let body :=
      JObj [ ("id", JStr (uuid4 env));
             ("username", JStr (UserCreate.username user_data));
             ("email", JStr (UserCreate.email user_data));
             ("created_at", JStr (now env)) ] in
    let db' := snd (app (POST_users env user_data) db) in
    fst (app (POST_users env user_data) db)
    = {| status := HTTP_201_CREATED; content := body |}
    /\ app (GET_users_id (uuid4 env)) db'
       = ({| status := HTTP_200_OK; content := body |}, db').
Proof.
  intros env user_data db. unfold app at 1 2 3, respond.
  destruct (create_user env user_data db) as [[u|e|x] db1] eqn:Hc; simpl.
  - intros _. apply create_user_Return in Hc as (-> & Hc).
    split; [reflexivity|].
    unfold app, respond, get_user.
    pose proof (refresh_after_add _ _ _ Hc) as Hr.
    unfold Session.refresh in Hr. simpl in Hr. now rewrite Hr.
  - revert Hc. unfold create_user.
    destruct (Session.add_commit (new_user env user_data) db) as [e'|db2].
    + destruct (Py.str_in "username" (str e'));
        [|destruct (Py.str_in "email" (str e'))];
        intros H; injection H as <- <-; discriminate.
    + destruct (Session.refresh (new_user env user_data) db2); discriminate.
  - discriminate.
Qed.

(** *** Response bodies *)

Lemma as_UserRead_no_password_hash (u : User.t) :
  has_key "password_hash" (as_UserRead u) = false.
Proof. reflexivity. Qed.

Lemma as_list_UserRead_no_password_hash (users : list User.t) :
  has_key "password_hash" (as_list_UserRead users) = false.
Proof.
  unfold as_list_UserRead. cbn [has_key].
  induction users as [|u users IH]; [reflexivity|].
  cbn [map existsb]. now rewrite as_UserRead_no_password_hash, IH.
Qed.

Lemma as_list_UserRead_keys (users : list User.t) :
  Forall (fun j => keys j = ["id"; "username"; "email"; "created_at"])
         (map as_UserRead users).
Proof. induction users; constructor; [reflexivity | assumption]. Qed.

(** C5.  For every request and every store, no object of the response
    body has the key [password_hash]; a successful answer of Create,
    Get-by-id or Update has exactly the keys [id], [username], [email]
    and [created_at], and a successful answer of List is an array of
    objects with exactly those keys. *)
Theorem password_hash_never_in_response :
  forall req db,
    let response := fst (app req db) in
    has_key "password_hash" (content response) = false
    /\ match req with
       | POST_users _ _ | GET_users_id _ | PUT_users_id _ _ =>
           status response = HTTP_200_OK \/ status response = HTTP_201_CREATED ->
           keys (content response) = ["id"; "username"; "email"; "created_at"]
       | GET_users _ _ =>
           status response = HTTP_200_OK ->
           exists items,
             content response = JArr items
             /\ Forall (fun j =>
                          keys j = ["id"; "username"; "email"; "created_at"])
                       items
       | _ => True
       end.
Proof.
  intros req db. destruct req; cbn zeta; unfold app, respond.
  - split; [reflexivity | exact I].
  - unfold create_user.
    destruct (Session.add_commit (new_user env user_data) db) as [e|db1].
    + destruct (Py.str_in "username" (str e));
        [|destruct (Py.str_in "email" (str e))];
        (split; [reflexivity | intros [H|H]; discriminate]).
    + destruct (Session.refresh (new_user env user_data) db1);
        (split; [reflexivity | intros [H|H]; try discriminate; reflexivity]).
  - unfold get_user. destruct (Session.first_by_id user_id db);
      (split; [reflexivity | intros [H|H]; try discriminate; reflexivity]).
  - unfold list_users.
    destruct (Session.offset_limit_all _ _ db) as [users|]; simpl.
    + split; [apply as_list_UserRead_no_password_hash|].
      intros _. exists (map as_UserRead users).
      split; [reflexivity | apply as_list_UserRead_keys].
    + split; [reflexivity | discriminate].
  - unfold update_user. destruct (Session.first_by_id user_id db) as [user|].
    + destruct (Session.update_commit user (assign user_data user) db)
        as [e|db1].
      * destruct (Py.str_in "username" (str e));
          [|destruct (Py.str_in "email" (str e))];
          (split; [reflexivity | intros [H|H]; discriminate]).
      * destruct (Session.refresh (assign user_data user) db1);
          (split; [reflexivity | intros [H|H]; try discriminate; reflexivity]).
    + split; [reflexivity | intros [H|H]; discriminate].
  - split; [|exact I]. unfold delete_user.
    destruct (Session.first_by_id user_id db); reflexivity.
  - split; [|exact I]. unfold verify_user_password.
    destruct (Session.first_by_username username db) as [user|];
      [|reflexivity].
    destruct (negb (verify_password password (User.password_hash user)));
      reflexivity.
Qed.

(** *** Unknown identifiers *)



(** *** Password verification *)


(** *** List *)




(** ** Further properties of the handlers *)

(** *** Acceptance and rejection *)

Lemma existsb_false_forall {A} (p : A -> bool) (l : list A) :
  existsb p l = false <-> forall x, In x l -> p x = false.
Proof.
  induction l as [|y l IH]; simpl.
  - split; [intros _ x [] | reflexivity].
  - rewrite orb_false_iff, IH. split.
    + intros [Hy Hl] x [<-|Hx]; auto.
    + intros H. split; [apply H; auto | intros x Hx; apply H; auto].
Qed.

(** Create has two ways out: the new row appended, or an HTTPException of
    status 409 or 400 with the store rolled back. *)
Lemma create_user_cases env user_data db :
  (Session.insert_violations (new_user env user_data) db = []
   /\ create_user env user_data db
      = (Return (new_user env user_data),
         (db ++ [new_user env user_data])%list))
  \/ (Session.insert_violations (new_user env user_data) db <> []
      /\ exists e,
          create_user env user_data db = (Raise e, db)
          /\ (status_code e = HTTP_409_CONFLICT
              \/ status_code e = HTTP_400_BAD_REQUEST)).
Proof.
  unfold create_user.
  destruct (Session.add_commit (new_user env user_data) db) as [e|db'] eqn:Hc.
  - right. split.
    + unfold Session.add_commit in Hc. intros Hv. rewrite Hv in Hc.
      discriminate.
    + destruct (Py.str_in "username" (str e));
        [|destruct (Py.str_in "email" (str e))];
        eexists; split; try reflexivity; auto.
  - left. rewrite (refresh_after_add _ _ _ Hc).
    pose proof Hc as Hc'. apply add_commit_inr in Hc' as (-> & _).
    split; [|reflexivity].
    unfold Session.add_commit in Hc.
    destruct (Session.insert_violations (new_user env user_data) db);
      [reflexivity | discriminate].
Qed.

Lemma insert_violations_nil (row : User.t) (db : Session.rows) :
  Session.insert_violations row db = []
  <-> forall r, In r db ->
        User.id r <> User.id row
        /\ User.username r <> User.username row
        /\ User.email r <> User.email row.
Proof.
  unfold Session.insert_violations.
  destruct (existsb (fun r => User.id r =? User.id row) db) eqn:Hi;
    destruct (existsb (fun r => User.username r =? User.username row) db)
      eqn:Hn;
    destruct (existsb (fun r => User.email r =? User.email row) db) eqn:He;
    simpl;
    try (split; [discriminate|]; intros H;
         first [ apply existsb_exists in Hi as (r & Hr & Heq)
               | apply existsb_exists in Hn as (r & Hr & Heq)
               | apply existsb_exists in He as (r & Hr & Heq) ];
         apply String.eqb_eq in Heq; destruct (H r Hr) as (? & ? & ?);
         contradiction).
  split; [intros _|reflexivity].
  intros r Hr.
  rewrite existsb_false_forall in Hi, Hn, He.
  specialize (Hi r Hr); specialize (Hn r Hr); specialize (He r Hr).
  simpl in Hi, Hn, He. apply String.eqb_neq in Hi, Hn, He. auto.
Qed.


Lemma update_violations_nil (old new : User.t) (db : Session.rows) :
  Session.update_violations old new db = []
  <-> (User.username new = User.username old
       \/ forall r, In r db -> User.username r <> User.username new)
      /\ (User.email new = User.email old
          \/ forall r, In r db -> User.email r <> User.email new).
Proof.
  unfold Session.update_violations.
  destruct (String.eqb_spec (User.username old) (User.username new)) as [Hn|Hn];
    destruct (String.eqb_spec (User.email old) (User.email new)) as [He|He];
    simpl.
  - split; auto.
  - destruct (existsb (fun r => User.email r =? User.email new) db) eqn:Hx.
    + split; [discriminate|]. intros (_ & [H|H]); [congruence|].
      apply existsb_exists in Hx as (r & Hr & Heq).
      apply String.eqb_eq in Heq. now apply H in Hr.
    + split; [intros _|reflexivity]. split; [auto|]. right.
      intros r Hr. rewrite existsb_false_forall in Hx.
      apply String.eqb_neq. exact (Hx r Hr).
  - destruct (existsb (fun r => User.username r =? User.username new) db)
      eqn:Hx.
    + split; [discriminate|]. intros ([H|H] & _); [congruence|].
      apply existsb_exists in Hx as (r & Hr & Heq).
      apply String.eqb_eq in Heq. now apply H in Hr.
    + split; [intros _|reflexivity]. split; [|auto]. right.
      intros r Hr. rewrite existsb_false_forall in Hx.
      apply String.eqb_neq. exact (Hx r Hr).
  - destruct (existsb (fun r => User.username r =? User.username new) db)
      eqn:Hx.
    + split; [discriminate|]. intros ([H|H] & _); [congruence|].
      apply existsb_exists in Hx as (r & Hr & Heq).
      apply String.eqb_eq in Heq. now apply H in Hr.
    + destruct (existsb (fun r => User.email r =? User.email new) db) eqn:Hy.
      * split; [discriminate|]. intros (_ & [H|H]); [congruence|].
        apply existsb_exists in Hy as (r & Hr & Heq).
        apply String.eqb_eq in Heq. now apply H in Hr.
      * split; [intros _|reflexivity]. split; right; intros r Hr.
        -- rewrite existsb_false_forall in Hx. apply String.eqb_neq.
           exact (Hx r Hr).
        -- rewrite existsb_false_forall in Hy. apply String.eqb_neq.
           exact (Hy r Hr).
Qed.

(** Update of a stored user has two ways out as well. *)
Lemma update_user_cases user_id user_data db user :
  Session.first_by_id user_id db = Some user ->
  (Session.update_violations user (assign user_data user) db = []
   /\ exists db',
       Session.update_commit user (assign user_data user) db = inr db'
       /\ update_user user_id user_data db
          = (Return (assign user_data user), db'))
  \/ (Session.update_violations user (assign user_data user) db <> []
      /\ exists e,
          update_user user_id user_data db = (Raise e, db)
          /\ (status_code e = HTTP_409_CONFLICT
              \/ status_code e = HTTP_400_BAD_REQUEST)).
Proof.
  intros Hf.
  destruct (Session.update_commit user (assign user_data user) db)
    as [e|db'] eqn:Hc.
  - right. split.
    + unfold Session.update_commit in Hc. intros Hv. rewrite Hv in Hc.
      destruct (_ && _) in Hc; discriminate.
    + unfold update_user. rewrite Hf, Hc.
      destruct (Py.str_in "username" (str e));
        [|destruct (Py.str_in "email" (str e))];
        eexists; split; try reflexivity; auto.
  - left. split.
    + unfold Session.update_commit in Hc.
      destruct ((User.username user =? User.username (assign user_data user))
                && (User.email user =? User.email (assign user_data user)))
        eqn:Hsame.
      * apply update_violations_nil.
        apply andb_true_iff in Hsame as [Hn He].
        apply String.eqb_eq in Hn, He. split; left; congruence.
      * destruct (Session.update_violations user (assign user_data user) db);
          [reflexivity | discriminate].
    + exists db'. split; [reflexivity|].
      destruct (update_commit_inr _ _ _ _ _ Hf Hc) as (Hnew & _).
      destruct (assign_fields user_data user) as (Ai & _).
      unfold update_user. rewrite Hf, Hc. unfold Session.refresh.
      now rewrite Ai, (first_by_id_id _ _ _ Hf), Hnew.
Qed.


(** *** Failures and reads *)

(** X3.  A request that is answered with a status of 400 or above leaves
    the store as it was, and so does every Health, Get-by-id, List and
    VerifyPassword request whatever its answer. *)
Theorem failed_and_read_requests_leave_store :
  forall req db,
    ((400 <= status (fst (app req db)))%Z -> snd (app req db) = db)
    /\ match req with
       | GET_health | GET_users_id _ | GET_users _ _
       | POST_verify_password _ _ => snd (app req db) = db
       | _ => True
       end.
Proof.
  intros req db. destruct req; unfold app, respond; simpl snd.
  - split; reflexivity.
  - split; [|exact I].
    destruct (create_user_cases env user_data db)
      as [(_ & ->) | (_ & e & -> & _)]; simpl.
    + unfold HTTP_201_CREATED. lia.
    + reflexivity.
  - unfold get_user. destruct (Session.first_by_id user_id db); split;
      reflexivity.
  - unfold list_users. destruct (Session.offset_limit_all _ _ db); split;
      reflexivity.
  - split; [|exact I].
    destruct (Session.first_by_id user_id db) as [user|] eqn:Hf.
    + destruct (update_user_cases user_id user_data db user Hf)
        as [(_ & db' & _ & ->) | (_ & e & -> & _)]; simpl.
      * unfold HTTP_200_OK. lia.
      * reflexivity.
    + unfold update_user. rewrite Hf. reflexivity.
  - split; [|exact I]. unfold delete_user.
    destruct (Session.first_by_id user_id db); simpl.
    + unfold HTTP_204_NO_CONTENT. lia.
    + reflexivity.
  - unfold verify_user_password.
    destruct (Session.first_by_username username db) as [user|];
      [destruct (negb (verify_password password (User.password_hash user)))|];
      split; reflexivity.
Qed.


(** *** Delete *)

Lemma first_by_id_delete_commit (k : UUID) (user : User.t) (db : Session.rows) :
  Session.first_by_id k (Session.delete_commit user db)
  = if k =? User.id user then None else Session.first_by_id k db.
Proof.
  unfold Session.first_by_id, Session.delete_commit.
  induction db as [|r db IH]; simpl.
  - now destruct (k =? User.id user).
  - destruct (String.eqb_spec (User.id r) (User.id user)) as [Hr|Hr]; simpl.
    + rewrite IH. destruct (String.eqb_spec k (User.id user)) as [Hk|Hk];
        [reflexivity|].
      destruct (String.eqb_spec (User.id r) k); [congruence | reflexivity].
    + rewrite IH. destruct (String.eqb_spec (User.id r) k) as [Hk|Hk];
        [|reflexivity].
      destruct (String.eqb_spec k (User.id user)); [congruence | reflexivity].
Qed.

Lemma delete_commit_length (user : User.t) (db : Session.rows) :
  In user db ->
  (length (Session.delete_commit user db) < length db)%nat.
Proof.
  unfold Session.delete_commit. induction db as [|r db IH]; simpl; [tauto|].
  intros [->|Hin].
  - rewrite String.eqb_refl. simpl.
    pose proof (filter_length_le
                  (fun r => negb (User.id r =? User.id user)) db). lia.
  - specialize (IH Hin).
    destruct (negb (User.id r =? User.id user)); simpl; lia.
Qed.

(** X5.  Delete of a stored user returns nothing and removes the rows of
    that id and no other: a row is in the store afterwards exactly when it
    was there before under another id, so there are fewer rows; lookups of
    other ids answer as before; and Get-by-id and a second Delete of the
    same id raise 404. *)
Theorem delete_user_removes_the_row :
  forall user_id db user,
    Session.first_by_id user_id db = Some user ->
    exists db',
      delete_user user_id db = (Return tt, db')
      /\ (forall r, In r db' <-> In r db /\ User.id r <> user_id)
      /\ (length db' < length db)%nat
      /\ (forall k, k <> user_id ->
            Session.first_by_id k db' = Session.first_by_id k db)
      /\ get_user user_id db'
         = (Raise {| status_code := HTTP_404_NOT_FOUND;
                     detail := "User not found" |}, db')
      /\ delete_user user_id db'
         = (Raise {| status_code := HTTP_404_NOT_FOUND;
                     detail := "User not found" |}, db').
Proof using.
  intros user_id db user Hf.
  pose proof (first_by_id_id _ _ _ Hf) as Hid.
  exists (Session.delete_commit user db).
  assert (Session.first_by_id user_id (Session.delete_commit user db) = None)
    as Hgone.
  { rewrite first_by_id_delete_commit, Hid. now rewrite String.eqb_refl. }
  split; [|split; [|split; [|split; [|split]]]].
  - unfold delete_user. now rewrite Hf.
  - intros r. unfold Session.delete_commit. rewrite filter_In, Hid.
    rewrite negb_true_iff, String.eqb_neq. reflexivity.
  - apply delete_commit_length. now apply find_some in Hf as [Hin _].
  - intros k Hk. rewrite first_by_id_delete_commit, Hid.
    apply String.eqb_neq in Hk. now rewrite Hk.
  - unfold get_user. now rewrite Hgone.
  - unfold delete_user. now rewrite Hgone.
Qed.

(** *** The uniqueness constraints as an invariant *)

(** In a column free of duplicates, two rows with the same value are the
    same row. *)
Lemma unique_column_inj (f : User.t -> string) (db : Session.rows)
    (a b : User.t) :
  NoDup (map f db) -> In a db -> In b db -> f a = f b -> a = b.
Proof.
  induction db as [|r db IH]; simpl; [tauto|].
  intros Hnd Ha Hb Hab. apply NoDup_cons_iff in Hnd as [Hr Hnd].
  destruct Ha as [->|Ha], Hb as [->|Hb]; auto.
  - exfalso. apply Hr. rewrite Hab. now apply in_map.
  - exfalso. apply Hr. rewrite <- Hab. now apply in_map.
Qed.

Lemma NoDup_map_app_last {A B} (f : A -> B) (l : list A) (x : A) :
  NoDup (map f l) -> ~ In (f x) (map f l) -> NoDup (map f (l ++ [x])%list).
Proof.
  intros Hnd Hx. rewrite map_app. simpl.
  apply NoDup_app; [exact Hnd | repeat constructor; tauto |].
  intros b Hb [<-|[]]. contradiction.
Qed.

(** Delete keeps a column free of duplicates. *)
Lemma delete_commit_keeps_column (f : User.t -> string) (user : User.t)
    (db : Session.rows) :
  NoDup (map f db) -> NoDup (map f (Session.delete_commit user db)).
Proof.
  unfold Session.delete_commit. intros Hnd.
  induction db as [|r db IH]; [exact Hnd|].
  apply NoDup_cons_iff in Hnd as [Hr Hnd]. cbn [filter].
  destruct (negb (User.id r =? User.id user)); [|now apply IH].
  cbn [map]. apply NoDup_cons; [|now apply IH].
  intros Hin. apply Hr. apply in_map_iff in Hin as (r' & Heq & Hin).
  apply filter_In in Hin as [Hin _]. rewrite <- Heq. now apply in_map.
Qed.

Lemma not_in_map_string (f : User.t -> string) (v : string) (db : Session.rows) :
  existsb (fun r => f r =? v) db = false -> ~ In v (map f db).
Proof.
  rewrite existsb_false_forall. intros H Hin.
  apply in_map_iff in Hin as (r & Hr & Hin).
  specialize (H r Hin). simpl in H. apply String.eqb_neq in H. contradiction.
Qed.

(** Writing [new] over the rows of the id of [old] keeps a column free of
    duplicates when [new] has the old value in it or a value that no row
    has. *)
Lemma NoDup_map_replace (f : User.t -> string) (old new : User.t)
    (db : Session.rows) :
  (forall r, In r db -> User.id r = User.id old -> r = old) ->
  NoDup (map User.id db) ->
  NoDup (map f db) ->
  f new = f old \/ ~ In (f new) (map f db) ->
  NoDup (map f (map (fun r => if User.id r =? User.id old then new else r) db)).
Proof.
  induction db as [|r db IH]; simpl; [constructor|].
  intros Hold Hid Hnd Hnew.
  apply NoDup_cons_iff in Hid as [Hrid Hid].
  apply NoDup_cons_iff in Hnd as [Hrf Hnd].
  assert (NoDup (map f (map (fun r => if User.id r =? User.id old
                                      then new else r) db))) as IH'.
  { apply IH; auto. destruct Hnew as [Hnew|Hnew]; [auto|].
    right. intros Hin. apply Hnew. now right. }
  constructor; [|exact IH'].
  intros Hin. apply in_map_iff in Hin as (y & Hy & Hin).
  apply in_map_iff in Hin as (r0 & Hr0 & Hin). subst y.
  destruct (String.eqb_spec (User.id r) (User.id old)) as [Hr|Hr];
    destruct (String.eqb_spec (User.id r0) (User.id old)) as [Hr0|Hr0].
  - apply Hrid. rewrite Hr, <- Hr0. now apply in_map.
  - assert (r = old) as -> by (apply Hold; auto).
    destruct Hnew as [Hnew|Hnew].
    + apply Hrf. rewrite <- Hnew, <- Hy. now apply in_map.
    + apply Hnew. right. rewrite <- Hy. now apply in_map.
  - assert (r0 = old) as -> by (apply Hold; auto).
    destruct Hnew as [Hnew|Hnew].
    + apply Hrf. rewrite <- Hy, Hnew. now apply in_map.
    + apply Hnew. left. now rewrite Hy.
  - apply Hrf. rewrite <- Hy. now apply in_map.
Qed.

Lemma unique_keys_add_commit (row : User.t) (db db' : Session.rows) :
  unique_keys db -> Session.add_commit row db = inr db' -> unique_keys db'.
Proof.
  intros (Hi & Hn & He) Hc.
  apply add_commit_inr in Hc as (-> & Xi & Xn & Xe).
  repeat split; apply NoDup_map_app_last; auto;
    now apply not_in_map_string.
Qed.

Lemma unique_keys_update_commit (user_id : UUID) (user_data : UserUpdate.t)
    (user : User.t) (db db' : Session.rows) :
  unique_keys db ->
  Session.first_by_id user_id db = Some user ->
  Session.update_commit user (assign user_data user) db = inr db' ->
  unique_keys db'.
Proof.
  intros (Hi & Hn & He) Hf Hc.
  pose proof Hf as Hin. apply find_some in Hin as [Hin _].
  destruct (assign_fields user_data user) as (Ai & _).
  unfold Session.update_commit in Hc.
  destruct ((User.username user =? User.username (assign user_data user))
            && (User.email user =? User.email (assign user_data user))).
  - injection Hc as <-. repeat split; assumption.
  - destruct (Session.update_violations user (assign user_data user) db)
      eqn:Hv; [|discriminate].
    injection Hc as <-.
    apply update_violations_nil in Hv as (Vn & Ve).
    assert (forall r, In r db -> User.id r = User.id user -> r = user)
      as Hsame.
    { intros r Hr Heq. now apply (unique_column_inj User.id db). }
    repeat split; apply NoDup_map_replace; auto.
    + destruct Vn as [Vn|Vn]; [auto|]. right. intros Hx.
      apply in_map_iff in Hx as (r & Hr & Hx). now apply Vn in Hx.
    + destruct Ve as [Ve|Ve]; [auto|]. right. intros Hx.
      apply in_map_iff in Hx as (r & Hr & Hx). now apply Ve in Hx.
Qed.

Lemma unique_keys_app (req : Request) (db : Session.rows) :
  unique_keys db -> unique_keys (snd (app req db)).
Proof.
  intros Hu. destruct req; unfold app, respond; simpl snd; try exact Hu.
  - destruct (create_user env user_data db) as [[u|e|x] db'] eqn:Hc;
      simpl.
    + apply create_user_Return in Hc as (_ & Hc).
      exact (unique_keys_add_commit _ _ _ Hu Hc).
    + destruct (create_user_cases env user_data db)
        as [(_ & Hc') | (_ & e' & Hc' & _)]; congruence.
    + destruct (create_user_cases env user_data db)
        as [(_ & Hc') | (_ & e' & Hc' & _)]; congruence.
  - unfold get_user. now destruct (Session.first_by_id user_id db).
  - unfold list_users. now destruct (Session.offset_limit_all _ _ db).
  - destruct (Session.first_by_id user_id db) as [user|] eqn:Hf.
    + destruct (update_user_cases user_id user_data db user Hf)
        as [(_ & db' & Hc & ->) | (_ & e & -> & _)]; simpl; [|exact Hu].
      exact (unique_keys_update_commit _ _ _ _ _ Hu Hf Hc).
    + unfold update_user. now rewrite Hf.
  - unfold delete_user. destruct (Session.first_by_id user_id db); [|exact Hu].
    simpl. destruct Hu as (Hi & Hn & He).
    repeat split; now apply delete_commit_keeps_column.
  - unfold verify_user_password.
    destruct (Session.first_by_username username db) as [user|];
      [destruct (negb (verify_password password (User.password_hash user)))|];
      exact Hu.
Qed.

(** X6.  No request breaks the uniqueness constraints: if no two rows
    share an id, a username or an email before a request, none do after
    it; hence none do after any sequence of requests on the empty
    store. *)
Theorem unique_keys_invariant :
  (forall req db, unique_keys db -> unique_keys (snd (app req db)))
  /\ (forall reqs, unique_keys (run reqs [])).
Proof.
  split; [exact unique_keys_app|].
  assert (forall reqs db, unique_keys db -> unique_keys (run reqs db)) as Hrun.
  { induction reqs as [|req reqs IH]; simpl; intros db Hu; [exact Hu|].
    apply IH. now apply unique_keys_app. }
  intros reqs. apply Hrun. repeat split; constructor.
Qed.

(** X7.  On a store that satisfies the uniqueness constraints, deleting a
    user frees its username and email: a Create with both, and an id that
    no stored row has, is accepted on the store that Delete left. *)
Theorem delete_frees_username_and_email :
  forall user_id db user env password,
    unique_keys db ->
    Session.first_by_id user_id db = Some user ->
    (forall r, In r db -> User.id r <> uuid4 env) ->
    let user_data :=
      UserCreate.mk (User.username user) (User.email user) password in
    let db' := snd (delete_user user_id db) in
    create_user env user_data db'
    = (Return (new_user env user_data), (db' ++ [new_user env user_data])%list).
Proof.
  intros user_id db user env password (Hi & Hn & He) Hf Hfresh user_data db'.
  pose proof Hf as Hin. apply find_some in Hin as [Hin _].
  destruct (create_user_cases env user_data db')
    as [(_ & Hc) | (Hv & _)]; [exact Hc|].
  exfalso. apply Hv. apply insert_violations_nil.
  intros r Hr. subst db'. unfold delete_user in Hr. rewrite Hf in Hr.
  simpl in Hr. unfold Session.delete_commit in Hr.
  apply filter_In in Hr as [Hr Hne].
  apply negb_true_iff, String.eqb_neq in Hne. simpl.
  split; [auto|]. split; intros Heq; apply Hne; f_equal.
  - now apply (unique_column_inj User.username db).
  - now apply (unique_column_inj User.email db).
Qed.

(** *** Create, then verify *)

(** X8.  After a successful Create, VerifyPassword under the created
    username finds the created user: it returns the success message for a
    password that verifies against the hash of the password given to
    Create, raises 401 for one that does not, and never raises 404. *)
Theorem create_then_verify_password :
  forall env user_data db u db' password,
    create_user env user_data db = (Return u, db') ->
    let hashed :=
      hash_password (gensalt env) (UserCreate.password user_data) in
    (verify_password password hashed = true ->
     verify_user_password (UserCreate.username user_data) password db'
     = (Return (JObj [ ("message", JStr "Password verified successfully") ]),
        db'))
    /\ (verify_password password hashed = false ->
        verify_user_password (UserCreate.username user_data) password db'
        = (Raise {| status_code := HTTP_401_UNAUTHORIZED;
                    detail := "Invalid password" |}, db')).
Proof.
  intros env user_data db u db' password Hc hashed.
  apply create_user_Return in Hc as (_ & Hc).
  apply add_commit_inr in Hc as (-> & _ & Hn & _).
  assert (Session.first_by_username (UserCreate.username user_data)
            (db ++ [new_user env user_data])%list
          = Some (new_user env user_data)) as Hfind.
  { unfold Session.first_by_username.
    apply find_app_last; [exact Hn | apply String.eqb_refl]. }
  unfold verify_user_password. rewrite Hfind. simpl. fold hashed.
  split; now intros ->.
Qed.

(** *** Rename *)

Lemma first_by_username_replace (name : string) (user_id : UUID)
    (old new : User.t) (db : Session.rows) :
  Session.first_by_id user_id db = Some old ->
  User.username new = name ->
  (forall r, In r db -> User.username r <> name) ->
  Session.first_by_username name
    (map (fun r => if User.id r =? User.id old then new else r) db)
  = Some new.
Proof.
  intros Hf Hnew. pose proof (first_by_id_id _ _ _ Hf) as Hid. subst user_id.
  revert Hf. unfold Session.first_by_id, Session.first_by_username.
  induction db as [|r db IH]; simpl; [discriminate|].
  intros Hf Hfree.
  destruct (String.eqb_spec (User.id r) (User.id old)) as [Hr|Hr].
  - simpl. rewrite Hnew. now rewrite String.eqb_refl.
  - simpl. assert (User.username r <> name) as Hrn by (apply Hfree; now left).
    apply String.eqb_neq in Hrn. rewrite Hrn.
    apply IH; [exact Hf | intros r' Hr'; apply Hfree; now right].
Qed.

(** X9.  On a store that satisfies the uniqueness constraints, a
    successful Update that changes the username moves the login: the new
    username finds the updated user, whose password hash is the one
    before, and VerifyPassword under the old username raises 404. *)
Theorem rename_moves_the_login :
  forall user_id new_name db user u db',
    unique_keys db ->
    Session.first_by_id user_id db = Some user ->
    new_name <> User.username user ->
    update_user user_id (UserUpdate.mk (Some new_name) None) db
    = (Return u, db') ->
    Session.first_by_username new_name db' = Some u
    /\ User.password_hash u = User.password_hash user
    /\ (forall password,
           verify_user_password (User.username user) password db'
           = (Raise {| status_code := HTTP_404_NOT_FOUND;
                       detail := "User not found" |}, db')).
Proof.
  intros user_id new_name db user u db' (Hi & Hn & He) Hf Hne Hu.
  pose proof Hf as Hin. apply find_some in Hin as [Hin _].
  destruct (update_user_Return _ _ _ _ _ _ Hf Hu) as (-> & Hc).
  remember (UserUpdate.mk (Some new_name) None) as user_data eqn:Hdata.
  destruct (assign_fields user_data user) as (Ai & An & Ae & Ap & Ac).
  rewrite Hdata in An at 2. simpl in An.
  unfold Session.update_commit in Hc.
  assert ((User.username user =? User.username (assign user_data user))
          = false) as Hch
      by (apply String.eqb_neq; congruence).
  rewrite Hch in Hc. simpl in Hc.
  destruct (Session.update_violations user (assign user_data user) db)
    eqn:Hv; [|discriminate].
  injection Hc as <-.
  apply update_violations_nil in Hv as (Vn & _).
  destruct Vn as [Vn|Vn]; [congruence|]. rewrite An in Vn.
  split; [|split].
  - now apply (first_by_username_replace new_name user_id).
  - exact Ap.
  - intros password. unfold verify_user_password.
    destruct (Session.first_by_username (User.username user) _)
      as [r|] eqn:Hr; [exfalso | reflexivity].
    apply find_some in Hr as [Hr Heq]. apply String.eqb_eq in Heq.
    apply in_map_iff in Hr as (r0 & Hr0 & Hin0).
    destruct (String.eqb_spec (User.id r0) (User.id user)) as [Hid|Hid].
    + subst r. congruence.
    + subst r. apply Hid. f_equal.
      now apply (unique_column_inj User.username db).
Qed.

(** *** Pages *)



(** *** Creation order *)



(** *** Lookup *)

(** X12.  On a store that satisfies the uniqueness constraints, every
    stored row is the one that Get-by-id returns for its id and the one
    that VerifyPassword checks for its username. *)
Theorem stored_rows_are_found :
  forall db r,
    unique_keys db ->
    In r db ->
    get_user (User.id r) db = (Return r, db)
    /\ Session.first_by_username (User.username r) db = Some r.
Proof.
  intros db r (Hi & Hn & _) Hr. split.
  - unfold get_user, Session.first_by_id.
    destruct (find (fun r0 => User.id r0 =? User.id r) db) as [u|] eqn:Hf.
    + apply find_some in Hf as [Hu Heq]. apply String.eqb_eq in Heq.
      now rewrite (unique_column_inj User.id db u r Hi Hu Hr Heq).
    + exfalso. apply (find_none _ _ Hf) in Hr. simpl in Hr.
      now rewrite String.eqb_refl in Hr.
  - unfold Session.first_by_username.
    destruct (find (fun r0 => User.username r0 =? User.username r) db)
      as [u|] eqn:Hf.
    + apply find_some in Hf as [Hu Heq]. apply String.eqb_eq in Heq.
      now rewrite (unique_column_inj User.username db u r Hn Hu Hr Heq).
    + exfalso. apply (find_none _ _ Hf) in Hr. simpl in Hr.
      now rewrite String.eqb_refl in Hr.
Qed.

(** *** Repeated requests *)

Lemma assign_idempotent (user_data : UserUpdate.t) (user : User.t) :
  assign user_data (assign user_data user) = assign user_data user.
Proof.
  unfold assign.
  destruct (UserUpdate.username user_data), (UserUpdate.email user_data);
    destruct user; reflexivity.
Qed.

(** X13.  Update is idempotent: the request that was just accepted, sent
    again, is accepted again with the same answer and leaves the store as
    the first one left it. *)
Theorem update_user_idempotent :
  forall user_id user_data db u db',
    update_user user_id user_data db = (Return u, db') ->
    update_user user_id user_data db' = (Return u, db').
Proof.
  intros user_id user_data db u db' Hu.
  destruct (Session.first_by_id user_id db) as [user|] eqn:Hf;
    [|unfold update_user in Hu; rewrite Hf in Hu; discriminate].
  destruct (update_user_Return _ _ _ _ _ _ Hf Hu) as (-> & Hc).
  destruct (update_commit_inr _ _ _ _ _ Hf Hc) as (Hnew & _).
  unfold update_user. rewrite Hnew, assign_idempotent.
  unfold Session.update_commit. rewrite !String.eqb_refl. simpl.
  unfold Session.refresh.
  destruct (assign_fields user_data user) as (-> & _).
  now rewrite (first_by_id_id _ _ _ Hf), Hnew.
Qed.


End Handlers.

(** *** The arithmetic factory *)

(** C9.  For all operands [a] and [b], [calculate] returns [a+b] for Add,
    [a-b] for Subtract, [a*b] for Multiply and [a/b] for Divide;
    [calculate("Add", -10.5, -5.5)] is [-16.0], and
    [calculate("Divide", 10.0, 3.0)] is within [1e-4] of
    [3.3333333333333335]. *)
#[warnings="-inexact-float"] Theorem calculate_semantics :
  (forall a b : float,
      CalculationFactory.calculate "Add" a b
      = CalculationFactory.Value (a + b)%float
      /\ CalculationFactory.calculate "Subtract" a b
         = CalculationFactory.Value (a - b)%float
      /\ CalculationFactory.calculate "Multiply" a b
         = CalculationFactory.Value (a * b)%float
      /\ CalculationFactory.calculate "Divide" a b
         = CalculationFactory.Value (a / b)%float)
  /\ CalculationFactory.calculate "Add" (-10.5)%float (-5.5)%float
     = CalculationFactory.Value (-16.0)%float
  /\ (exists x,
         CalculationFactory.calculate "Divide" 10.0%float 3.0%float
         = CalculationFactory.Value x
         /\ CalculationFactory.within 0.0001%float x 3.3333333333333335%float
            = true).
Proof.
  split; [|split].
  - intros a b. repeat split.
  - vm_compute. reflexivity.
  - eexists. split; [reflexivity|]. vm_compute. reflexivity.
Qed.

(** ** The properties on the fixtures *)




(** Changing Jane's address only: her username, hash and creation time
    stay, John's row is as it was, and the row returned is the stored one
    with the new address. *)
Lemma update_changes_supplied_fields_only_witness :
  Session.first_by_id (User.id Fixture.janedoe_row)
    [Fixture.johndoe_row; Fixture.janedoe_row] = Some Fixture.janedoe_row
  /\ (exists user',
         Session.first_by_id (User.id Fixture.janedoe_row)
           (snd (update_user Fixture.str_IntegrityError
                   (User.id Fixture.janedoe_row)
                   (UserUpdate.mk None (Some "newemail@example.com"))
                   [Fixture.johndoe_row; Fixture.janedoe_row]))
         = Some user'
         /\ User.username user' = "janedoe"
         /\ User.password_hash user' = "salt2$securepassword456"
         /\ User.created_at user' = "2024-01-01T12:00:02")
  /\ Session.first_by_id (User.id Fixture.johndoe_row)
       (snd (update_user Fixture.str_IntegrityError
               (User.id Fixture.janedoe_row)
               (UserUpdate.mk None (Some "newemail@example.com"))
               [Fixture.johndoe_row; Fixture.janedoe_row]))
     = Some Fixture.johndoe_row
  /\ (exists u db',
         update_user Fixture.str_IntegrityError
           (User.id Fixture.janedoe_row)
           (UserUpdate.mk None (Some "newemail@example.com"))
           [Fixture.johndoe_row; Fixture.janedoe_row]
         = (Return u, db')
         /\ Session.first_by_id (User.id Fixture.janedoe_row) db' = Some u
         /\ User.username u = "janedoe"
         /\ User.email u = "newemail@example.com").
Proof.
  destruct (update_changes_supplied_fields_only
              Fixture.str_IntegrityError
              (User.id Fixture.janedoe_row)
              (UserUpdate.mk None (Some "newemail@example.com"))
              [Fixture.johndoe_row; Fixture.janedoe_row]
              Fixture.janedoe_row eq_refl)
    as ((user' & Hrow & _ & Hhash & Hat & Hname & _) & Hother & Hret).
  split; [reflexivity|]. split; [|split].
  - exists user'. split; [exact Hrow|]. split; [exact (Hname eq_refl)|].
    split; [exact Hhash | exact Hat].
  - apply Hother. discriminate.
  - eexists. eexists. split; [reflexivity|]. exact (Hret _ _ eq_refl).
Defined.

(** An empty Update of John returns John and leaves both rows. *)
Lemma update_without_fields_is_identity_witness :
  Session.first_by_id (User.id Fixture.johndoe_row)
    [Fixture.johndoe_row; Fixture.janedoe_row] = Some Fixture.johndoe_row
  /\ update_user Fixture.str_IntegrityError (User.id Fixture.johndoe_row)
       (UserUpdate.mk None None) [Fixture.johndoe_row; Fixture.janedoe_row]
     = (Return Fixture.johndoe_row, [Fixture.johndoe_row; Fixture.janedoe_row]).
Proof.
  split; [reflexivity|].
  exact (proj1 (update_without_fields_is_identity
                  Fixture.hash_password Fixture.verify_password
                  Fixture.str_IntegrityError
                  (User.id Fixture.johndoe_row)
                  [Fixture.johndoe_row; Fixture.janedoe_row]
                  Fixture.johndoe_row eq_refl)).
Defined.

(** Creating [johndoe] on the empty store, then reading the new id. *)
Lemma create_then_get_by_id_witness :
  status (fst (app Fixture.hash_password Fixture.verify_password
                   Fixture.str_IntegrityError
                   (POST_users (Fixture.env "1") Fixture.johndoe) []))
  = HTTP_201_CREATED
  /\ app Fixture.hash_password Fixture.verify_password
       Fixture.str_IntegrityError
       (GET_users_id "00000000-0000-0000-0000-000000000001")
       [Fixture.johndoe_row]
     = ({| status := HTTP_200_OK;
           content :=
             JObj [ ("id", JStr "00000000-0000-0000-0000-000000000001");
                    ("username", JStr "johndoe");
                    ("email", JStr "john@example.com");
                    ("created_at", JStr "2024-01-01T12:00:01") ] |},
        [Fixture.johndoe_row]).
Proof.
  split; [reflexivity|].
  exact (proj2 (create_then_get_by_id
                  Fixture.hash_password Fixture.verify_password
                  Fixture.str_IntegrityError
                  (Fixture.env "1") Fixture.johndoe [] eq_refl)).
Defined.

(** The body of Get-by-id for John, and of List on both rows. *)
Lemma password_hash_never_in_response_witness :
  keys (content (fst (app Fixture.hash_password Fixture.verify_password
                          Fixture.str_IntegrityError
                          (GET_users_id (User.id Fixture.johndoe_row))
                          [Fixture.johndoe_row; Fixture.janedoe_row])))
  = ["id"; "username"; "email"; "created_at"]
  /\ exists items,
      content (fst (app Fixture.hash_password Fixture.verify_password
                        Fixture.str_IntegrityError
                        (GET_users None None)
                        [Fixture.johndoe_row; Fixture.janedoe_row]))
      = JArr items
      /\ Forall (fun j => keys j = ["id"; "username"; "email"; "created_at"])
                items.
Proof.
  split.
  - exact (proj2 (password_hash_never_in_response
                    Fixture.hash_password Fixture.verify_password
                    Fixture.str_IntegrityError
                    (GET_users_id (User.id Fixture.johndoe_row))
                    [Fixture.johndoe_row; Fixture.janedoe_row])
                 (or_introl eq_refl)).
  - exact (proj2 (password_hash_never_in_response
                    Fixture.hash_password Fixture.verify_password
                    Fixture.str_IntegrityError
                    (GET_users None None)
                    [Fixture.johndoe_row; Fixture.janedoe_row])
                 eq_refl).
Defined.




(** ** The further properties on the fixtures *)



(** The rejected second [johndoe] leaves John's store. *)
Lemma failed_and_read_requests_leave_store_witness :
  (400 <= status (fst (app Fixture.hash_password Fixture.verify_password
                           Fixture.str_IntegrityError
                           (POST_users (Fixture.env "2") Fixture.johndoe2)
                           [Fixture.johndoe_row])))%Z
  /\ snd (app Fixture.hash_password Fixture.verify_password
              Fixture.str_IntegrityError
              (POST_users (Fixture.env "2") Fixture.johndoe2)
              [Fixture.johndoe_row])
     = [Fixture.johndoe_row].
Proof.
  assert (400 <= status (fst (app Fixture.hash_password
                                  Fixture.verify_password
                                  Fixture.str_IntegrityError
                                  (POST_users (Fixture.env "2")
                                              Fixture.johndoe2)
                                  [Fixture.johndoe_row])))%Z as Hfail.
  { vm_compute. discriminate. }
  split; [exact Hfail|].
  exact (proj1 (failed_and_read_requests_leave_store
                  Fixture.hash_password Fixture.verify_password
                  Fixture.str_IntegrityError
                  (POST_users (Fixture.env "2") Fixture.johndoe2)
                  [Fixture.johndoe_row]) Hfail).
Defined.

(** Deleting John from the store of John and Jane leaves Jane. *)
Lemma delete_user_removes_the_row_witness :
  Session.first_by_id (User.id Fixture.johndoe_row)
    [Fixture.johndoe_row; Fixture.janedoe_row] = Some Fixture.johndoe_row
  /\ exists db',
      delete_user (User.id Fixture.johndoe_row)
        [Fixture.johndoe_row; Fixture.janedoe_row] = (Return tt, db')
      /\ (In Fixture.janedoe_row db'
          <-> In Fixture.janedoe_row [Fixture.johndoe_row; Fixture.janedoe_row]
              /\ User.id Fixture.janedoe_row <> User.id Fixture.johndoe_row)
      /\ Session.first_by_id (User.id Fixture.janedoe_row) db'
         = Some Fixture.janedoe_row
      /\ get_user (User.id Fixture.johndoe_row) db'
         = (Raise {| status_code := HTTP_404_NOT_FOUND;
                     detail := "User not found" |}, db').
Proof.
  split; [reflexivity|].
  destruct (delete_user_removes_the_row
              (User.id Fixture.johndoe_row)
              [Fixture.johndoe_row; Fixture.janedoe_row]
              Fixture.johndoe_row eq_refl)
    as (db' & Hdel & Hin & _ & Hother & Hget & _).
  exists db'. split; [exact Hdel|]. split; [apply Hin|].
  split; [|exact Hget].
  rewrite Hother; [reflexivity | discriminate].
Defined.

(** John and Jane share no key, and still do not after Jane's rename. *)
Lemma unique_keys_invariant_witness :
  unique_keys [Fixture.johndoe_row; Fixture.janedoe_row]
  /\ unique_keys
       (snd (app Fixture.hash_password Fixture.verify_password
                 Fixture.str_IntegrityError
                 (PUT_users_id (User.id Fixture.janedoe_row)
                               (UserUpdate.mk (Some "jane") None))
                 [Fixture.johndoe_row; Fixture.janedoe_row])).
Proof.
  assert (unique_keys [Fixture.johndoe_row; Fixture.janedoe_row]) as Hu.
  { repeat split; repeat constructor; simpl; intuition discriminate. }
  split; [exact Hu|].
  exact (proj1 (unique_keys_invariant
                  Fixture.hash_password Fixture.verify_password
                  Fixture.str_IntegrityError) _ _ Hu).
Defined.

(** After John is deleted, a new user may take his username and email. *)
Lemma delete_frees_username_and_email_witness :
  create_user Fixture.hash_password Fixture.str_IntegrityError
    (Fixture.env "3")
    (UserCreate.mk "johndoe" "john@example.com" "pw2345678")
    (snd (delete_user (User.id Fixture.johndoe_row)
            [Fixture.johndoe_row; Fixture.janedoe_row]))
  = (Return (new_user Fixture.hash_password (Fixture.env "3")
               (UserCreate.mk "johndoe" "john@example.com" "pw2345678")),
     [Fixture.janedoe_row;
      new_user Fixture.hash_password (Fixture.env "3")
        (UserCreate.mk "johndoe" "john@example.com" "pw2345678")]).
Proof.
  apply (delete_frees_username_and_email
           Fixture.hash_password Fixture.str_IntegrityError
           (User.id Fixture.johndoe_row)
           [Fixture.johndoe_row; Fixture.janedoe_row]
           Fixture.johndoe_row (Fixture.env "3") "pw2345678").
  - repeat split; repeat constructor; simpl; intuition discriminate.
  - reflexivity.
  - intros r [<-|[<-|[]]]; discriminate.
Defined.

(** John, just created, verifies with his password and not with
    another. *)
Lemma create_then_verify_password_witness :
  verify_user_password Fixture.verify_password
    "johndoe" "securepassword123" [Fixture.johndoe_row]
  = (Return (JObj [ ("message", JStr "Password verified successfully") ]),
     [Fixture.johndoe_row])
  /\ verify_user_password Fixture.verify_password
       "johndoe" "wrongpassword" [Fixture.johndoe_row]
     = (Raise {| status_code := HTTP_401_UNAUTHORIZED;
                 detail := "Invalid password" |}, [Fixture.johndoe_row]).
Proof.
  split.
  - exact (proj1 (create_then_verify_password
                    Fixture.hash_password Fixture.verify_password
                    Fixture.str_IntegrityError
                    (Fixture.env "1") Fixture.johndoe []
                    Fixture.johndoe_row [Fixture.johndoe_row]
                    "securepassword123" eq_refl) eq_refl).
  - exact (proj2 (create_then_verify_password
                    Fixture.hash_password Fixture.verify_password
                    Fixture.str_IntegrityError
                    (Fixture.env "1") Fixture.johndoe []
                    Fixture.johndoe_row [Fixture.johndoe_row]
                    "wrongpassword" eq_refl) eq_refl).
Defined.

(** Jane renamed to [jane]: the new name finds her, the old one no
    one. *)
Lemma rename_moves_the_login_witness :
  exists u db',
    update_user Fixture.str_IntegrityError (User.id Fixture.janedoe_row)
      (UserUpdate.mk (Some "jane") None)
      [Fixture.johndoe_row; Fixture.janedoe_row]
    = (Return u, db')
    /\ Session.first_by_username "jane" db' = Some u
    /\ User.password_hash u = "salt2$securepassword456"
    /\ verify_user_password Fixture.verify_password
         "janedoe" "securepassword456" db'
       = (Raise {| status_code := HTTP_404_NOT_FOUND;
                   detail := "User not found" |}, db').
Proof.
  exists (User.mk "00000000-0000-0000-0000-000000000002" "jane"
                  "jane@example.com" "salt2$securepassword456"
                  "2024-01-01T12:00:02").
  exists [Fixture.johndoe_row;
          User.mk "00000000-0000-0000-0000-000000000002" "jane"
                  "jane@example.com" "salt2$securepassword456"
                  "2024-01-01T12:00:02"].
  split; [reflexivity|].
  destruct (rename_moves_the_login
              Fixture.verify_password Fixture.str_IntegrityError
              (User.id Fixture.janedoe_row) "jane"
              [Fixture.johndoe_row; Fixture.janedoe_row]
              Fixture.janedoe_row
              (User.mk "00000000-0000-0000-0000-000000000002" "jane"
                       "jane@example.com" "salt2$securepassword456"
                       "2024-01-01T12:00:02")
              [Fixture.johndoe_row;
               User.mk "00000000-0000-0000-0000-000000000002" "jane"
                       "jane@example.com" "salt2$securepassword456"
                       "2024-01-01T12:00:02"])
    as (Hnew & Hhash & Hold);
    [ repeat split; repeat constructor; simpl; intuition discriminate
    | reflexivity | discriminate | reflexivity | ].
  split; [exact Hnew|]. split; [exact Hhash | apply Hold].
Defined.



(** Jane, second in the store, is found by her id and by her username. *)
Lemma stored_rows_are_found_witness :
  get_user (User.id Fixture.janedoe_row)
    [Fixture.johndoe_row; Fixture.janedoe_row]
  = (Return Fixture.janedoe_row, [Fixture.johndoe_row; Fixture.janedoe_row])
  /\ Session.first_by_username "janedoe"
       [Fixture.johndoe_row; Fixture.janedoe_row]
     = Some Fixture.janedoe_row.
Proof.
  apply (stored_rows_are_found
           [Fixture.johndoe_row; Fixture.janedoe_row] Fixture.janedoe_row).
  - repeat split; repeat constructor; simpl; intuition discriminate.
  - right. now left.
Defined.

(** Jane's change of address, sent twice. *)
Lemma update_user_idempotent_witness :
  exists u db',
    update_user Fixture.str_IntegrityError (User.id Fixture.janedoe_row)
      (UserUpdate.mk None (Some "newemail@example.com"))
      [Fixture.johndoe_row; Fixture.janedoe_row]
    = (Return u, db')
    /\ update_user Fixture.str_IntegrityError (User.id Fixture.janedoe_row)
         (UserUpdate.mk None (Some "newemail@example.com")) db'
       = (Return u, db').
Proof.
  exists (User.mk "00000000-0000-0000-0000-000000000002" "janedoe"
                  "newemail@example.com" "salt2$securepassword456"
                  "2024-01-01T12:00:02").
  exists [Fixture.johndoe_row;
          User.mk "00000000-0000-0000-0000-000000000002" "janedoe"
                  "newemail@example.com" "salt2$securepassword456"
                  "2024-01-01T12:00:02"].
  split; [reflexivity|].
  exact (update_user_idempotent
           Fixture.str_IntegrityError (User.id Fixture.janedoe_row)
           (UserUpdate.mk None (Some "newemail@example.com"))
           [Fixture.johndoe_row; Fixture.janedoe_row] _ _ eq_refl).
Defined.

